(** * Fellow Collection Dashboard: the percentile classifier

    A shallow embedding of [fellowship_app.py]: the static percentile table,
    the band-to-category dictionaries, [find_percentile_column] and the body of
    the "Calculate Risk Category" handler with what it displays, and a run of
    the whole script, followed by their properties.

    Modelling choices.
    - A Python [float] (and a NumPy [float64] cell) is an IEEE-754 binary64
      value: Rocq's primitive [float].  The literals of the table are written
      as in the source and are rounded to the nearest binary64 value exactly as
      Python rounds them; [<=] on floats is [PrimFloat.leb].  An amount ranges
      over every binary64 value, infinities and NaN included.
    - A Python [int] is a [Z].
    - The pandas [DataFrame] is column oriented, as in the source: an integer
      ['Month'] column and an ordered list of named float columns.
    - A [dict] with string keys is a [gmap string _]; subscription [d[k]]
      raises [KeyError] when the key is absent.
    - Exceptions are explicit: a computation returns [Ok v] or [Raise e]. *)

From Stdlib Require Import ZArith Lia Floats.
From stdpp Require Import base option list strings gmap.

Set Warnings "-inexact-float".

Local Open Scope Z_scope.

(** ** Python floats: the order of binary64 values *)

Module PyFloat.

(** Python's [x <= y] and [x < y] on floats. *)
Definition le (x y : float) : bool := PrimFloat.leb x y.
Definition lt (x y : float) : bool := PrimFloat.ltb x y.

(** The position of a value in the order of the extended reals, as a triple
    compared lexicographically: the class (from minus infinity to plus
    infinity), then the exponent and the mantissa, both negated for a
    negative value.  NaN has no position. *)
Definition key (f : spec_float) : option (Z * Z * Z) :=
  match f with
  | S754_nan => None
  | S754_infinity true => Some (-2, 0, 0)
  | S754_finite true m e => Some (-1, - e, Z.neg m)
  | S754_zero _ => Some (0, 0, 0)
  | S754_finite false m e => Some (1, e, Z.pos m)
  | S754_infinity false => Some (2, 0, 0)
  end.

Definition lex_lt (p q : Z * Z * Z) : Prop :=
  p.1.1 < q.1.1 \/
  (p.1.1 = q.1.1 /\ (p.1.2 < q.1.2 \/ (p.1.2 = q.1.2 /\ p.2 < q.2))).

Definition lex_le (p q : Z * Z * Z) : Prop :=
  p.1.1 < q.1.1 \/
  (p.1.1 = q.1.1 /\ (p.1.2 < q.1.2 \/ (p.1.2 = q.1.2 /\ p.2 <= q.2))).

Definition on_keys (R : Z * Z * Z -> Z * Z * Z -> Prop) (x y : spec_float) : Prop :=
  match key x, key y with
  | Some p, Some q => R p q
  | _, _ => False
  end.

End PyFloat.

(** ** Exceptions *)

Inductive exn : Type :=
  | KeyError (key : string)
  | IndexError.

Inductive result (A : Type) : Type :=
  | Ok (v : A)
  | Raise (e : exn).
Arguments Ok {A} v.
Arguments Raise {A} e.

#[global] Instance result_ret : MRet result := fun _ v => Ok v.
#[global] Instance result_bind : MBind result := fun _ _ f m =>
  match m with
  | Ok v => f v
  | Raise e => Raise e
  end.
#[global] Instance result_fmap : FMap result := fun _ _ f m =>
  match m with
  | Ok v => Ok (f v)
  | Raise e => Raise e
  end.

(** [d[k]] on a dictionary. *)
Definition dict_getitem {V} (d : gmap string V) (k : string) : result V :=
  match d !! k with
  | Some v => Ok v
  | None => Raise (KeyError k)
  end.

(** ** The part of pandas the program uses *)

Module Pandas.

(** A frame with an integer ['Month'] column followed by float columns, in
    the order of the dictionary it is built from. *)
Record DataFrame : Type := mkDataFrame {
  Month : list Z;
  floats : list (string * list float)
}.

(** [df.columns] *)
Definition columns (df : DataFrame) : list string :=
  "Month" :: (floats df).*1.

(** [df['Month'] == month]: the boolean mask over the rows. *)
Definition Month_eq (df : DataFrame) (month : Z) : list bool :=
  (fun v => bool_decide (v = month)) <$> Month df.

(** Boolean indexing of one column: the entries whose mask bit is set. *)
Fixpoint select {A} (mask : list bool) (l : list A) : list A :=
  match mask, l with
  | b :: mask', x :: l' => if b then x :: select mask' l' else select mask' l'
  | _, _ => []
  end.

(** [df[mask]]: the rows whose mask bit is set, in every column. *)
Definition getitem_mask (df : DataFrame) (mask : list bool) : DataFrame :=
  {| Month := select mask (Month df);
     floats := prod_map id (select mask) <$> floats df |}.

(** [df.empty]: no row (the frames here always have columns). *)
Definition empty (df : DataFrame) : bool :=
  match Month df with
  | [] => true
  | _ :: _ => false
  end.

(** [df[col]] for a float column. *)
Fixpoint lookup_col (cols : list (string * list float)) (col : string)
    : result (list float) :=
  match cols with
  | [] => Raise (KeyError col)
  | (c, s) :: cols' => if String.eqb c col then Ok s else lookup_col cols' col
  end.

Definition getitem (df : DataFrame) (col : string) : result (list float) :=
  lookup_col (floats df) col.

(** [s.values[0]] *)
Definition values0 (s : list float) : result float :=
  match s with
  | v :: _ => Ok v
  | [] => Raise IndexError
  end.

End Pandas.
Import Pandas.

(** ** The program *)

(** [percentile_data] and [percentile_df].  The integer zeros of ['p_10'] and
    ['p_25'] sit in lists with floats, so pandas stores them as [0.0]. *)
Definition percentile_df : DataFrame := {|
  Month := [1; 2; 3; 4; 5; 6; 7; 8; 9];
  floats := [
    ("p_10", [0; 2776.037; 11202.374; 13549.61; 19085.83; 24859.675; 25195.28; 26549.521; 30254.91]);
    ("p_25", [0; 4978.2075; 13689.055; 18025.34; 23503.0175; 27071.215; 29208.02; 30688.22; 33567.065]);
    ("p_50", [243.87; 7562.965; 18393.82; 23374.07; 27142.26; 32423.515; 33522.465; 33477.645; 38551.74]);
    ("p_75", [2049.31; 12953.015; 21512.3275; 27968.61; 32186.3275; 35000.2525; 38845.98; 38924.8375; 45185.775]);
    ("p_90", [2871.238; 14422.303; 24093.88; 32562.358; 35985.399; 38910.38; 42963.32; 43240.285; 48425.45])
  ]%float
|}.

Definition risk_cat : gmap string string :=
  list_to_map [
    ("p_0", "Critical");
    ("p_10", "High Risk");
    ("p_25", "Watch");
    ("p_50", "Watch");
    ("p_75", "On Track");
    ("p_90", "On Track")
  ].

(** Color mapping for visual feedback. *)
Definition risk_colors : gmap string string :=
  list_to_map [
    ("Critical", "🔴");
    ("High Risk", "🟠");
    ("Watch", "🟡");
    ("On Track", "🟢")
  ].

(** The loop of [find_percentile_column] over the columns still to visit:
    [last_col] is the running answer, and the first column whose value exceeds
    [current_collection] ends the walk. *)
Fixpoint scan (row : DataFrame) (current_collection : float)
    (cols : list string) (last_col : string) : result string :=
  match cols with
  | [] => Ok last_col
  | col :: cols' =>
      s ← getitem row col;
      v ← values0 s;
      if PyFloat.le v current_collection
      then scan row current_collection cols' col
      else Ok last_col
  end.

(** [None] is Python's [None], returned for a month without row. *)
Definition find_percentile_column (df : DataFrame) (month : Z)
    (current_collection : float) : result (option string) :=
  let row := getitem_mask df (Month_eq df month) in
  if empty row then Ok None
  else
    let percentile_cols := filter (fun col => col <> "Month") (columns df) in
    Some <$> scan row current_collection percentile_cols "p_0".

(** What the handler of the "Calculate Risk Category" button shows: the error
    message for an invalid month, or the percentile with its risk category and
    symbol. *)
Inductive outcome : Type :=
  | MonthNotFound
  | Classified (percentile risk_category risk_symbol : string).

(** The body of the handler; the specification calls it [classify]. *)
Definition classify (month_input : Z) (current_collection_input : float)
    : result outcome :=
  percentile ← find_percentile_column percentile_df month_input current_collection_input;
  match percentile with
  | None => Ok MonthNotFound
  | Some percentile =>
      risk_category ← dict_getitem risk_cat percentile;
      risk_symbol ← dict_getitem risk_colors risk_category;
      Ok (Classified percentile risk_category risk_symbol)
  end.


(** ** The vocabulary of the specification *)

(** The band columns in ascending order, and all six bands with the sentinel
    first. *)
Definition band_order : list string := ["p_10"; "p_25"; "p_50"; "p_75"; "p_90"].
Definition all_bands : list string := "p_0" :: band_order.

Definition categories : list string := ["Critical"; "High Risk"; "Watch"; "On Track"].

(** [row(month).band]: the entry of column [band] at the position of [month]
    in the ['Month'] column. *)
Definition threshold (month : Z) (band : string) : option float :=
  '(i, _) ← list_find (fun v => v = month) (Month percentile_df);
  s ← (list_to_map (floats percentile_df) : gmap string (list float)) !! band;
  s !! i.

(** The position of a band in the order p0 < p10 < p25 < p50 < p75 < p90, and
    the order itself. *)
Definition band_rank (band : string) : option nat :=
  fst <$> list_find (fun b => b = band) all_bands.

Definition band_le (b1 b2 : string) : Prop :=
  exists r1 r2, band_rank b1 = Some r1 /\ band_rank b2 = Some r2 /\ (r1 <= r2)%nat.

(** The reference definition of the band: the highest band, in [band_order],
    whose threshold in the month's row is at most the amount, and ["p_0"]
    when there is none. *)
Definition meets (month : Z) (amount : float) (band : string) : bool :=
  match threshold month band with
  | Some t => PyFloat.le t amount
  | None => false
  end.

Definition highest_band_met (month : Z) (amount : float) : string :=
  default "p_0" (last (List.filter (meets month amount) band_order)).

(** The band and the category of an outcome. *)
Definition band_of (r : result outcome) : option string :=
  match r with
  | Ok (Classified percentile _ _) => Some percentile
  | _ => None
  end.

Definition category_of (r : result outcome) : option string :=
  match r with
  | Ok (Classified _ risk_category _) => Some risk_category
  | _ => None
  end.

(** ** The walk over a row, on the thresholds themselves *)

(** The walk of [scan] once the cells of the row are read: [ts] pairs each
    column still to visit with its threshold. *)
Fixpoint walk (amount : float) (ts : list (string * float)) (last_col : string)
    : string :=
  match ts with
  | [] => last_col
  | (col, t) :: ts' =>
      if PyFloat.le t amount then walk amount ts' col else last_col
  end.

(** The number of columns the walk passes before it stops. *)
Fixpoint passed (amount : float) (ts : list (string * float)) : nat :=
  match ts with
  | [] => O
  | (_, t) :: ts' => if PyFloat.le t amount then S (passed amount ts') else O
  end.

(** Thresholds that do not decrease along the list. *)
Fixpoint nondecreasing (ts : list float) : bool :=
  match ts with
  | t1 :: ((t2 :: _) as ts') => PyFloat.le t1 t2 && nondecreasing ts'
  | _ => true
  end.

(** The row of a month as the walk sees it. *)
Definition row_thresholds (month : Z) : list (string * float) :=
  omap (fun band => pair band <$> threshold month band) band_order.

(** ** Frames in general *)

(** What pandas guarantees of a frame: every column has as many entries as
    the frame has rows. *)
Definition well_formed (df : DataFrame) : Prop :=
  Forall (fun cs => length cs.2 = length (Month df)) (floats df).

(** [df[col].values[i]] for the first row [i] of [df] whose month is [month]. *)
Definition cell (df : DataFrame) (month : Z) (col : string) : option float :=
  '(i, _) ← list_find (fun v => v = month) (Month df);
  match getitem df col with
  | Ok s => s !! i
  | Raise _ => None
  end.

(** The columns the loop visits. *)
Definition percentile_cols (df : DataFrame) : list string :=
  filter (fun col => col <> "Month") (columns df).




(** ** The page *)

(** The Streamlit calls of the script, with their arguments; a container
    holds the calls made inside it. *)
#[local] Set Warnings "-register-all".

Inductive widget : Type :=
  | st_title (body : string)
  | st_markdown (body : string)
  | st_subheader (body : string)
  | st_caption (body : string)
  | st_columns (cols : list (list widget))
  | st_number_input_int (label : string) (min_value max_value value step : Z)
      (help : string)
  | st_number_input_float (label : string) (min_value value step : float)
      (format help : string)
  | st_button (label type : string)
  | st_metric (label value : string)
  | st_error (body : string)
  | st_warning (body : string)
  | st_info (body : string)
  | st_success (body : string)
  | st_expander (label : string) (body : list widget)
  | st_dataframe (data : DataFrame) (use_container_width : bool).

(** [str.upper] on ASCII text, which is what the handler passes to it: the
    name of a column of the table or ['p_0'].  A letter from [a] to [z] is
    moved to its capital, every other ASCII character is kept. *)
Definition upper_ascii (c : Ascii.ascii) : Ascii.ascii :=
  let n := Ascii.nat_of_ascii c in
  if ((97 <=? n) && (n <=? 122))%nat then Ascii.ascii_of_nat (n - 32) else c.

Fixpoint upper (s : string) : string :=
  match s with
  | EmptyString => EmptyString
  | String c s' => String (upper_ascii c) (upper s')
  end.

(** The chain of [if]/[elif]/[else] on the risk category. *)
Definition advisory (risk_category : string) : widget :=
  if String.eqb risk_category "Critical" then
    st_error "Fellow is in Critical status. Immediate intervention recommended."
  else if String.eqb risk_category "High Risk" then
    st_warning "Fellow is at High Risk. Close monitoring and support needed."
  else if String.eqb risk_category "Watch" then
    st_info "Fellow should be monitored. Consider additional support."
  else
    st_success "Fellow is On Track. Continue current approach.".

(** What the handler displays for an outcome: the error for an invalid month,
    or the results with the two metrics side by side and the advisory. *)
Definition render (o : outcome) : list widget :=
  match o with
  | MonthNotFound =>
      [st_error "Invalid month entered. Please enter a month between 1 and 9."]
  | Classified percentile risk_category risk_symbol =>
      [st_markdown "---";
       st_subheader "Results";
       st_columns [
         [st_metric "Percentile" (upper percentile)];
         [st_metric "Risk Category" (risk_symbol +:+ " " +:+ risk_category)]];
       advisory risk_category]
  end.

(** The handler of the button: both dictionary lookups come before the first
    call that displays, so a lookup that raises displays nothing. *)
Definition on_calculate (month_input : Z) (current_collection_input : float)
    : result (list widget) :=
  render <$> classify month_input current_collection_input.

(** One run of the script, for the values the two inputs return and whether
    the button was clicked.  An exception in the handler ends the run. *)
Definition app (month_input : Z) (current_collection_input : float)
    (clicked : bool) : result (list widget) :=
  shown ← (if clicked then on_calculate month_input current_collection_input
           else Ok []);
  Ok ([st_title "Fellow Collection Dashboard";
       st_markdown "---";
       st_columns [
         [st_number_input_int "Fellow Month (1-9)" 1 9 1 1
            "Enter the current month of fellowship (1-9)"];
         [st_number_input_float "Current Collection Amount ($)" 0 0 100 "%.2f"
            "Enter the fellow's current collection amount"]];
       st_button "Calculate Risk Category" "primary"]
      ++ shown ++
      [st_expander "View Percentile Reference Table"
         [st_dataframe percentile_df true];
       st_markdown "---";
       st_caption "Fellow Collection Risk Assessment Tool --- Design In Progress ---";
       st_caption "Built by P.M.McGrath"]).

(** * Properties *)

(** ** The order of floats *)

Section FloatOrder.
Import PyFloat.

Ltac cmp_cases :=
  repeat match goal with
  | |- context [Z.compare ?a ?b] => destruct (Z.compare_spec a b)
  | |- context [Pos.compare_cont Eq ?a ?b] =>
      change (Pos.compare_cont Eq a b) with (Pos.compare a b);
      destruct (Pos.compare_spec a b)
  end.

Lemma SFleb_key x y : SFleb x y = true <-> on_keys lex_le x y.
Proof.
  unfold SFleb, on_keys, lex_le.
  destruct x as [[]|[]| |[] mx ex], y as [[]|[]| |[] my ey]; simpl;
    cmp_cases; simpl; split; intros; try done; try lia.
Qed.

Lemma SFltb_key x y : SFltb x y = true <-> on_keys lex_lt x y.
Proof.
  unfold SFltb, on_keys, lex_lt.
  destruct x as [[]|[]| |[] mx ex], y as [[]|[]| |[] my ey]; simpl;
    cmp_cases; simpl; split; intros; try done; try lia.
Qed.

Lemma float_le_key x y : le x y = true <-> on_keys lex_le (Prim2SF x) (Prim2SF y).
Proof. unfold le. rewrite leb_spec. apply SFleb_key. Qed.

Lemma float_lt_key x y : lt x y = true <-> on_keys lex_lt (Prim2SF x) (Prim2SF y).
Proof. unfold lt. rewrite ltb_spec. apply SFltb_key. Qed.

Ltac to_keys :=
  rewrite ?float_le_key, ?float_lt_key, ?not_true_iff_false in *;
  repeat match goal with
  | H : _ = false |- _ => apply not_true_iff_false in H; rewrite ?float_le_key, ?float_lt_key in H
  end;
  unfold on_keys, lex_le, lex_lt in *;
  repeat match goal with
  | |- context [key ?s] => destruct (key s) as [[[? ?] ?]|]
  | H : context [key ?s] |- _ => destruct (key s) as [[[? ?] ?]|]
  end; simpl in *.

Lemma float_le_trans x y z : le x y = true -> le y z = true -> le x z = true.
Proof. intros Hxy Hyz. to_keys; lia. Qed.

Lemma float_lt_le_trans x y z : lt x y = true -> le y z = true -> lt x z = true.
Proof. intros Hxy Hyz. to_keys; lia. Qed.

Lemma float_lt_not_le x y : lt x y = true -> le y x = false.
Proof. intros Hxy. apply not_true_iff_false. intros Hyx. to_keys; lia. Qed.

(** A value that some value is below is not NaN, so it is below itself. *)
Lemma float_le_refl_r x y : le x y = true -> le y y = true.
Proof. intros Hxy. to_keys; lia. Qed.

End FloatOrder.

(** ** The walk *)

Section Walk.
Import PyFloat.

Variable amount : float.

(** [scan] reads the cells and then walks as [walk] does. *)
Lemma scan_walk (row : DataFrame) (ts : list (string * float)) :
  Forall (fun ct => (getitem row ct.1 ≫= values0) = Ok ct.2) ts ->
  forall last_col, scan row amount ts.*1 last_col = Ok (walk amount ts last_col).
Proof.
  induction 1 as [|[col t] ts Hcell _ IH]; intros last_col; simpl; [done|].
  simpl in Hcell. destruct (getitem row col) as [s|e]; simpl in *; [|done].
  rewrite Hcell. simpl. destruct (le t amount); [apply IH | done].
Qed.

(** The answer is the band at the position where the walk stops. *)
Lemma walk_passed (ts : list (string * float)) (last_col : string) :
  (last_col :: ts.*1) !! passed amount ts = Some (walk amount ts last_col).
Proof.
  revert last_col. induction ts as [|[col t] ts IH]; intros last_col; simpl; [done|].
  destruct (le t amount); [apply IH | done].
Qed.

(** Along nondecreasing thresholds, one threshold above the amount puts all
    the later ones above it. *)
Lemma nondecreasing_above (t : float) (ts : list float) :
  nondecreasing (t :: ts) = true -> le t amount = false ->
  Forall (fun t' => le t' amount = false) ts.
Proof.
  revert t. induction ts as [|t' ts IH]; intros t Hnd Ht; [constructor|].
  apply andb_prop in Hnd as [Htt' Hnd].
  assert (Ht' : le t' amount = false).
  { destruct (le t' amount) eqn:E; [|done].
    rewrite (float_le_trans _ _ _ Htt' E) in Ht. done. }
  constructor; [done | by apply (IH t')].
Qed.

Lemma nondecreasing_tail (t : float) (ts : list float) :
  nondecreasing (t :: ts) = true -> nondecreasing ts = true.
Proof. destruct ts; [done|]. by intros [_ ?]%andb_prop. Qed.

Lemma default_last_cons {A} (d x : A) (l : list A) :
  default d (last (x :: l)) = default x (last l).
Proof.
  revert d x. induction l as [|y l IH]; intros d x; [done|].
  change (default d (last (y :: l)) = default x (last (y :: l))).
  by rewrite (IH d y), (IH x y).
Qed.

(** The early exit loses nothing when the thresholds do not decrease: the
    walk ends on the last column whose threshold is at most the amount. *)
Lemma walk_highest (ts : list (string * float)) (last_col : string) :
  nondecreasing ts.*2 = true ->
  walk amount ts last_col =
    default last_col (last (List.filter (fun ct => le ct.2 amount) ts).*1).
Proof.
  revert last_col. induction ts as [|[col t] ts IH]; intros last_col Hnd; [done|].
  simpl. destruct (le t amount) eqn:Ht.
  - rewrite IH.
    + simpl. by rewrite default_last_cons.
    + by apply (nondecreasing_tail t).
  - pose proof (nondecreasing_above t ts.*2 Hnd Ht) as Habove.
    replace (List.filter _ ts) with (@nil (string * float)); [done|].
    clear -Habove. induction ts as [|[col' t'] ts IH]; [done|].
    simpl in *. apply Forall_cons in Habove as [-> ?]. by apply IH.
Qed.

End Walk.

(** A larger amount passes at least as many columns. *)
Lemma passed_mono (a1 a2 : float) (ts : list (string * float)) :
  PyFloat.le a1 a2 = true -> (passed a1 ts <= passed a2 ts)%nat.
Proof.
  intros Ha. induction ts as [|[col t] ts IH]; simpl; [done|].
  destruct (PyFloat.le t a1) eqn:Ht; [|lia].
  rewrite (float_le_trans _ _ _ Ht Ha). lia.
Qed.

(** ** The month lookup *)

Lemma select_Month_eq (l : list Z) (month : Z) :
  select ((fun v => bool_decide (v = month)) <$> l) l = [] <-> month ∉ l.
Proof.
  induction l as [|v l IH]; simpl.
  - split; [intros _; apply not_elem_of_nil | done].
  - rewrite not_elem_of_cons. case_bool_decide as Hv.
    + split; [done | intros [? _]; congruence].
    + rewrite IH. split; [intros ?; split; congruence | by intros [_ ?]].
Qed.

(** [None] is returned exactly for a month that is not in the ['Month']
    column, whatever the frame and the amount. *)
Lemma find_percentile_column_None (df : DataFrame) (month : Z) (a : float) :
  find_percentile_column df month a = Ok None <-> month ∉ Month df.
Proof.
  rewrite <- select_Month_eq. unfold find_percentile_column, Month_eq, empty. simpl.
  destruct (select _ (Month df)); [done|].
  split; [|done]. by destruct (scan _ _ _ _).
Qed.

Lemma classify_MonthNotFound (month : Z) (a : float) :
  classify month a = Ok MonthNotFound <->
  find_percentile_column percentile_df month a = Ok None.
Proof.
  unfold classify.
  destruct (find_percentile_column percentile_df month a) as [[b|]|e]; simpl; [|done..].
  split; [|done].
  destruct (dict_getitem risk_cat b) as [c|]; simpl; [|done].
  by destruct (dict_getitem risk_colors c).
Qed.

Lemma Month_range (month : Z) : month ∈ Month percentile_df <-> 1 <= month <= 9.
Proof. simpl. rewrite !elem_of_cons, elem_of_nil. lia. Qed.

(** ** The table *)

(** With a row for the month, [find_percentile_column] walks the cells of
    that row. *)
Lemma find_percentile_column_walk (df : DataFrame) (month : Z) (a : float)
    (ts : list (string * float)) :
  empty (getitem_mask df (Month_eq df month)) = false ->
  filter (fun col => col <> "Month") (columns df) = ts.*1 ->
  Forall (fun ct =>
    (getitem (getitem_mask df (Month_eq df month)) ct.1 ≫= values0) = Ok ct.2) ts ->
  find_percentile_column df month a = Ok (Some (walk a ts "p_0")).
Proof.
  intros Hrow Hcols Hcells. unfold find_percentile_column.
  rewrite Hrow, Hcols, (scan_walk a _ ts Hcells). done.
Qed.

Lemma row_thresholds_threshold (month : Z) :
  Forall (fun ct => threshold month ct.1 = Some ct.2) (row_thresholds month).
Proof.
  unfold row_thresholds. induction band_order as [|b bs IH]; simpl; [constructor|].
  destruct (threshold month b) eqn:Hb; simpl; [constructor|]; done.
Qed.

(** Every month from 1 to 9 has a row of five thresholds, none negative and
    none below the one before it, and the function walks that row. *)
Lemma table_row (month : Z) :
  1 <= month <= 9 ->
  exists t10 t25 t50 t75 t90,
    row_thresholds month =
      [("p_10", t10); ("p_25", t25); ("p_50", t50); ("p_75", t75); ("p_90", t90)] /\
    nondecreasing [0%float; t10; t25; t50; t75; t90] = true /\
    forall a, find_percentile_column percentile_df month a
              = Ok (Some (walk a (row_thresholds month) "p_0")).
Proof.
  intros Hm.
  assert (Hcases : month ∈ [1; 2; 3; 4; 5; 6; 7; 8; 9])
    by (rewrite !elem_of_cons; lia).
  repeat (apply elem_of_cons in Hcases as [->|Hcases]);
    [..|by apply elem_of_nil in Hcases];
    (do 5 eexists; split; [reflexivity|]; split; [reflexivity|];
     intros a; apply find_percentile_column_walk;
     [reflexivity | reflexivity | repeat constructor]).
Qed.

Lemma meets_filter (month : Z) (a : float) (ts : list (string * float)) :
  Forall (fun ct => threshold month ct.1 = Some ct.2) ts ->
  List.filter (meets month a) ts.*1 =
    (List.filter (fun ct => PyFloat.le ct.2 a) ts).*1.
Proof.
  induction 1 as [|[b t] ts Hb _ IH]; [done|].
  change (((b, t) :: ts).*1) with (b :: ts.*1).
  change (List.filter (meets month a) (b :: ts.*1))
    with (if meets month a b then b :: List.filter (meets month a) ts.*1
          else List.filter (meets month a) ts.*1).
  unfold meets at 1. simpl in Hb. rewrite Hb, IH. simpl.
  by destruct (PyFloat.le t a).
Qed.

Lemma band_rank_lookup (i : nat) (b : string) :
  all_bands !! i = Some b -> band_rank b = Some i.
Proof.
  do 6 (destruct i as [|i]; [intros [= <-]; reflexivity|]). done.
Qed.

(** The band of a month from 1 to 9: the one at the position where the walk
    over the month's row stops. *)
Lemma find_percentile_column_passed (month : Z) (a : float) :
  1 <= month <= 9 ->
  exists b,
    all_bands !! passed a (row_thresholds month) = Some b /\
    find_percentile_column percentile_df month a = Ok (Some b).
Proof.
  intros Hm. destruct (table_row month Hm) as (t10 & t25 & t50 & t75 & t90 & Hrow & _ & Hw).
  exists (walk a (row_thresholds month) "p_0"). split; [|apply Hw].
  rewrite <- (walk_passed a (row_thresholds month) "p_0"). by rewrite Hrow.
Qed.

(** The handler after the lookup, once the band is known. *)
Lemma classify_band (month : Z) (a : float) (b : string) :
  find_percentile_column percentile_df month a = Ok (Some b) ->
  classify month a =
    (risk_category ← dict_getitem risk_cat b;
     risk_symbol ← dict_getitem risk_colors risk_category;
     Ok (Classified b risk_category risk_symbol)).
Proof. intros Hb. unfold classify. by rewrite Hb. Qed.

(** Both dictionaries have an entry for each of the six bands. *)
Lemma band_lookups (b : string) :
  b ∈ all_bands ->
  exists c s, c ∈ categories /\
    dict_getitem risk_cat b = Ok c /\ dict_getitem risk_colors c = Ok s.
Proof.
  intros Hb.
  repeat (apply elem_of_cons in Hb as [->|Hb]); [..|by apply elem_of_nil in Hb];
    (do 2 eexists; split; [|split; reflexivity]); set_solver.
Qed.

(** ** The claims *)

(** C1. For every month from 1 to 9 and every amount, the scan with early
    exit of [find_percentile_column] returns the band of the reference
    definition: the highest band, in the order p_10 < p_25 < p_50 < p_75 <
    p_90, whose threshold in the month's row is at most the amount, and p_0
    when no threshold is. *)
Theorem find_percentile_column_refines_reference (month : Z) (amount : float) :
  1 <= month <= 9 ->
  find_percentile_column percentile_df month amount
  = Ok (Some (highest_band_met month amount)).
Proof.
  intros Hm. destruct (table_row month Hm) as (t10 & t25 & t50 & t75 & t90 & Hrow & Hnd & Hw).
  rewrite Hw. do 2 f_equal. unfold highest_band_met.
  replace band_order with (row_thresholds month).*1 by (by rewrite Hrow).
  rewrite (meets_filter month amount _ (row_thresholds_threshold month)).
  apply walk_highest. rewrite Hrow. by apply (nondecreasing_tail 0%float).
Qed.

Lemma find_percentile_column_refines_reference_witness :
  1 <= 3 <= 9 /\
  find_percentile_column percentile_df 3 15000 = Ok (Some (highest_band_met 3 15000)).
Proof.
  split; [lia | apply (find_percentile_column_refines_reference 3 15000); lia].
Defined.

(** C2, as the code has it. For month 1 and amount 0 the handler returns band
    p25 and category Watch: the thresholds p10 and p25 of month 1 are both 0,
    so the non-strict comparison succeeds at both, and the walk stops at p50,
    whose threshold 243.87 is above 0. *)
Theorem classify_month_1_amount_0 :
  classify 1 0 = Ok (Classified "p_25" "Watch" "🟡") /\
  threshold 1 "p_10" = Some 0%float /\
  threshold 1 "p_25" = Some 0%float /\
  threshold 1 "p_50" = Some 243.87%float /\
  PyFloat.le 243.87 0 = false.
Proof. repeat split; reflexivity. Qed.

(** C2, as the specification states it, fails: for month 1 and amount 0 the
    band is not p10 and the category is not High Risk. *)
Lemma classify_month_1_amount_0_not_p10 :
  band_of (classify 1 0) = Some "p_25" /\
  band_of (classify 1 0) <> Some "p_10" /\
  category_of (classify 1 0) <> Some "High Risk".
Proof.
  split; [reflexivity|].
  split; intros H; vm_compute in H; discriminate H.
Qed.

(** C3. The handler reports [MonthNotFound] exactly when the month has no row
    in the table, whatever the amount; months 0 and 10 are such months; and
    the report is not the band p_0, which is a result: the function returns
    [None] for the one and the string for the other. *)
Theorem classify_MonthNotFound_iff :
  (forall month amount,
     classify month amount = Ok MonthNotFound <-> month ∉ Month percentile_df) /\
  (forall amount, classify 0 amount = Ok MonthNotFound) /\
  (forall amount, classify 10 amount = Ok MonthNotFound) /\
  (forall month amount,
     find_percentile_column percentile_df month amount = Ok None ->
     band_of (classify month amount) = None) /\
  (forall month amount,
     find_percentile_column percentile_df month amount = Ok (Some "p_0") ->
     classify month amount = Ok (Classified "p_0" "Critical" "🔴")).
Proof.
  assert (Hiff : forall month amount,
    classify month amount = Ok MonthNotFound <-> month ∉ Month percentile_df).
  { intros. by rewrite classify_MonthNotFound, find_percentile_column_None. }
  split; [done|]. split; [|split; [|split]].
  - intros a. apply Hiff. rewrite Month_range. lia.
  - intros a. apply Hiff. rewrite Month_range. lia.
  - intros month a H. apply classify_MonthNotFound in H. by rewrite H.
  - intros month a H. by rewrite (classify_band _ _ _ H).
Qed.

(** C4. For a month from 1 to 9 and amounts [a1 <= a2], the band of
    [classify month a1] is at or before the band of [classify month a2] in the
    order p0 < p10 < p25 < p50 < p75 < p90. *)
Theorem classify_band_monotone (month : Z) (a1 a2 : float) :
  1 <= month <= 9 ->
  PyFloat.le a1 a2 = true ->
  exists b1 b2,
    band_of (classify month a1) = Some b1 /\
    band_of (classify month a2) = Some b2 /\
    band_le b1 b2.
Proof.
  intros Hm Ha.
  destruct (find_percentile_column_passed month a1 Hm) as (b1 & Hr1 & Hb1).
  destruct (find_percentile_column_passed month a2 Hm) as (b2 & Hr2 & Hb2).
  exists b1, b2.
  destruct (band_lookups b1) as (c1 & s1 & _ & Hc1 & Hs1); [by eapply list_elem_of_lookup_2|].
  destruct (band_lookups b2) as (c2 & s2 & _ & Hc2 & Hs2); [by eapply list_elem_of_lookup_2|].
  rewrite (classify_band _ _ _ Hb1), (classify_band _ _ _ Hb2), Hc1, Hc2. simpl.
  rewrite Hs1, Hs2. simpl. repeat split.
  exists (passed a1 (row_thresholds month)), (passed a2 (row_thresholds month)).
  auto using band_rank_lookup, passed_mono.
Qed.

Lemma classify_band_monotone_witness :
  (1 <= 3 <= 9 /\ PyFloat.le 15000 20000 = true) /\
  exists b1 b2,
    band_of (classify 3 15000) = Some b1 /\
    band_of (classify 3 20000) = Some b2 /\
    band_le b1 b2.
Proof.
  split; [split; [lia | reflexivity]|].
  apply (classify_band_monotone 3 15000 20000); [lia | reflexivity].
Defined.

(** The thresholds of a row by name, and their order, unpacked from
    [table_row]. *)
Lemma table_row_thresholds (month : Z) :
  1 <= month <= 9 ->
  exists t10 t25 t50 t75 t90,
    (threshold month "p_10" = Some t10 /\ threshold month "p_25" = Some t25 /\
     threshold month "p_50" = Some t50 /\ threshold month "p_75" = Some t75 /\
     threshold month "p_90" = Some t90) /\
    (PyFloat.le 0 t10 = true /\ PyFloat.le t10 t25 = true /\
     PyFloat.le t25 t50 = true /\ PyFloat.le t50 t75 = true /\
     PyFloat.le t75 t90 = true) /\
    forall a, find_percentile_column percentile_df month a
      = Ok (Some (walk a [("p_10", t10); ("p_25", t25); ("p_50", t50);
                          ("p_75", t75); ("p_90", t90)] "p_0")).
Proof.
  intros Hm. destruct (table_row month Hm) as (t10 & t25 & t50 & t75 & t90 & Hrow & Hnd & Hw).
  exists t10, t25, t50, t75, t90.
  pose proof (row_thresholds_threshold month) as Hth. rewrite Hrow in Hw, Hth.
  repeat (apply Forall_cons in Hth as [? Hth]).
  simpl in Hnd. repeat (apply andb_prop in Hnd as [? Hnd]).
  done.
Qed.

(** C5. For a month from 1 to 9 and an amount at or above the p90 threshold
    of its row, the handler returns band p90 and category On Track, with no
    error however large the amount; the amount equal to the threshold is
    such an amount. *)
Theorem classify_at_or_above_p90 (month : Z) (t90 : float) :
  1 <= month <= 9 ->
  threshold month "p_90" = Some t90 ->
  (forall amount, PyFloat.le t90 amount = true ->
     classify month amount = Ok (Classified "p_90" "On Track" "🟢")) /\
  classify month t90 = Ok (Classified "p_90" "On Track" "🟢").
Proof.
  intros Hm Ht.
  destruct (table_row_thresholds month Hm)
    as (t10 & t25 & t50 & t75 & t & (_ & _ & _ & _ & Ht') & (_ & H1 & H2 & H3 & H4) & Hw).
  assert (t = t90) as -> by congruence.
  assert (Hall : forall amount, PyFloat.le t90 amount = true ->
    classify month amount = Ok (Classified "p_90" "On Track" "🟢")).
  { intros a H5.
    pose proof (float_le_trans _ _ _ H4 H5) as G4.
    pose proof (float_le_trans _ _ _ H3 G4) as G3.
    pose proof (float_le_trans _ _ _ H2 G3) as G2.
    pose proof (float_le_trans _ _ _ H1 G2) as G1.
    rewrite (classify_band month a "p_90"); [reflexivity|].
    rewrite Hw. simpl. by rewrite G1, G2, G3, G4, H5. }
  split; [done|]. apply Hall. by apply (float_le_refl_r t75).
Qed.

Lemma classify_at_or_above_p90_witness :
  (1 <= 9 <= 9 /\ threshold 9 "p_90" = Some 48425.45%float) /\
  (forall amount, PyFloat.le 48425.45 amount = true ->
     classify 9 amount = Ok (Classified "p_90" "On Track" "🟢")) /\
  classify 9 48425.45 = Ok (Classified "p_90" "On Track" "🟢").
Proof.
  split; [split; [lia | reflexivity]|].
  apply (classify_at_or_above_p90 9 48425.45); [lia | reflexivity].
Defined.

(** C6. For a month from 1 to 9 whose p10 threshold is above 0 and an amount
    strictly below that threshold, the handler returns band p0 and category
    Critical. *)
Theorem classify_below_p10 (month : Z) (t10 amount : float) :
  1 <= month <= 9 ->
  threshold month "p_10" = Some t10 ->
  PyFloat.lt 0 t10 = true ->
  PyFloat.lt amount t10 = true ->
  classify month amount = Ok (Classified "p_0" "Critical" "🔴").
Proof.
  intros Hm Ht _ Ha.
  destruct (table_row_thresholds month Hm)
    as (t & t25 & t50 & t75 & t90 & (Ht' & _) & _ & Hw).
  assert (t = t10) as -> by congruence.
  rewrite (classify_band month amount "p_0"); [reflexivity|].
  rewrite Hw. simpl. by rewrite (float_lt_not_le _ _ Ha).
Qed.

Lemma classify_below_p10_witness :
  (1 <= 3 <= 9 /\ threshold 3 "p_10" = Some 11202.374%float /\
   PyFloat.lt 0 11202.374 = true /\ PyFloat.lt 11202.37 11202.374 = true) /\
  classify 3 11202.37 = Ok (Classified "p_0" "Critical" "🔴").
Proof.
  split; [split; [lia | repeat split; reflexivity]|].
  apply (classify_below_p10 3 11202.374 11202.37); [lia | reflexivity..].
Defined.

(** C7. The mapping from bands to categories is fixed and total over the six
    bands: p0 is Critical, p10 is High Risk, p25 and p50 are Watch, p75 and
    p90 are On Track; the six bands are its only keys, and each has one
    category, one of the four. *)
Theorem risk_cat_total :
  risk_cat !! "p_0" = Some "Critical" /\
  risk_cat !! "p_10" = Some "High Risk" /\
  risk_cat !! "p_25" = Some "Watch" /\
  risk_cat !! "p_50" = Some "Watch" /\
  risk_cat !! "p_75" = Some "On Track" /\
  risk_cat !! "p_90" = Some "On Track" /\
  dom risk_cat = list_to_set all_bands /\
  Forall (fun b => exists c, c ∈ categories /\ dict_getitem risk_cat b = Ok c /\
            forall c', risk_cat !! b = Some c' -> c' = c) all_bands.
Proof.
  do 6 (split; [reflexivity|]). split.
  - unfold risk_cat. rewrite dom_list_to_map_L. reflexivity.
  - repeat (apply List.Forall_cons;
      [eexists; split; [|split; [reflexivity|]];
       [set_solver | intros c' Hc'; vm_compute in Hc'; by injection Hc' as <-]|]).
    apply List.Forall_nil.
Qed.

(** C8. In the table as the program holds it, every month from 1 to 9 has its
    five thresholds, they do not decrease from p10 to p90, and none is
    negative. *)
Theorem percentile_rows_monotone (month : Z) :
  1 <= month <= 9 ->
  exists t10 t25 t50 t75 t90,
    (threshold month "p_10" = Some t10 /\ threshold month "p_25" = Some t25 /\
     threshold month "p_50" = Some t50 /\ threshold month "p_75" = Some t75 /\
     threshold month "p_90" = Some t90) /\
    (PyFloat.le t10 t25 = true /\ PyFloat.le t25 t50 = true /\
     PyFloat.le t50 t75 = true /\ PyFloat.le t75 t90 = true) /\
    Forall (fun t => PyFloat.le 0 t = true) [t10; t25; t50; t75; t90].
Proof.
  intros Hm.
  destruct (table_row_thresholds month Hm)
    as (t10 & t25 & t50 & t75 & t90 & Hth & (H0 & H1 & H2 & H3 & H4) & _).
  exists t10, t25, t50, t75, t90. split; [done|]. split; [done|].
  pose proof (float_le_trans _ _ _ H0 H1) as G1.
  pose proof (float_le_trans _ _ _ G1 H2) as G2.
  pose proof (float_le_trans _ _ _ G2 H3) as G3.
  pose proof (float_le_trans _ _ _ G3 H4) as G4.
  by repeat constructor.
Qed.

Lemma percentile_rows_monotone_witness :
  1 <= 8 <= 9 /\
  exists t10 t25 t50 t75 t90,
    (threshold 8 "p_10" = Some t10 /\ threshold 8 "p_25" = Some t25 /\
     threshold 8 "p_50" = Some t50 /\ threshold 8 "p_75" = Some t75 /\
     threshold 8 "p_90" = Some t90) /\
    (PyFloat.le t10 t25 = true /\ PyFloat.le t25 t50 = true /\
     PyFloat.le t50 t75 = true /\ PyFloat.le t75 t90 = true) /\
    Forall (fun t => PyFloat.le 0 t = true) [t10; t25; t50; t75; t90].
Proof.
  split; [lia | apply (percentile_rows_monotone 8); lia].
Defined.

(** C9. For a month from 1 to 9 and an amount strictly below zero,
    [find_percentile_column] raises nothing and returns p_0, so the category
    is Critical: the p_10 threshold of every row is at least 0, and the first
    comparison fails. *)
Theorem find_percentile_column_negative (month : Z) (amount : float) :
  1 <= month <= 9 ->
  PyFloat.lt amount 0 = true ->
  find_percentile_column percentile_df month amount = Ok (Some "p_0") /\
  classify month amount = Ok (Classified "p_0" "Critical" "🔴").
Proof.
  intros Hm Ha.
  destruct (table_row_thresholds month Hm)
    as (t10 & t25 & t50 & t75 & t90 & _ & (H0 & _) & Hw).
  assert (Hb : find_percentile_column percentile_df month amount = Ok (Some "p_0")).
  { rewrite Hw. simpl.
    by rewrite (float_lt_not_le _ _ (float_lt_le_trans _ _ _ Ha H0)). }
  split; [done|]. by rewrite (classify_band _ _ _ Hb).
Qed.

Lemma find_percentile_column_negative_witness :
  (1 <= 1 <= 9 /\ PyFloat.lt (-0.01) 0 = true) /\
  find_percentile_column percentile_df 1 (-0.01) = Ok (Some "p_0") /\
  classify 1 (-0.01) = Ok (Classified "p_0" "Critical" "🔴").
Proof.
  split; [split; [lia | reflexivity]|].
  apply (find_percentile_column_negative 1 (-0.01)); [lia | reflexivity].
Defined.

(** C10. For a month from 1 to 9 and any amount, [find_percentile_column]
    returns one of the six band names, never [None], and the subscriptions
    [risk_cat[percentile]] and [risk_colors[risk_category]] of the handler
    find their keys. *)
Theorem find_percentile_column_band (month : Z) (amount : float) :
  1 <= month <= 9 ->
  exists b c s,
    find_percentile_column percentile_df month amount = Ok (Some b) /\
    b ∈ all_bands /\
    dict_getitem risk_cat b = Ok c /\
    dict_getitem risk_colors c = Ok s /\
    classify month amount = Ok (Classified b c s).
Proof.
  intros Hm.
  destruct (find_percentile_column_passed month amount Hm) as (b & Hr & Hb).
  apply list_elem_of_lookup_2 in Hr.
  destruct (band_lookups b Hr) as (c & s & _ & Hc & Hs).
  exists b, c, s. repeat (split; [done|]).
  by rewrite (classify_band _ _ _ Hb), Hc; simpl; rewrite Hs.
Qed.

Lemma find_percentile_column_band_witness :
  1 <= 5 <= 9 /\
  exists b c s,
    find_percentile_column percentile_df 5 nan = Ok (Some b) /\
    b ∈ all_bands /\
    dict_getitem risk_cat b = Ok c /\
    dict_getitem risk_colors c = Ok s /\
    classify 5 nan = Ok (Classified b c s).
Proof.
  split; [lia | apply (find_percentile_column_band 5 nan); lia].
Defined.

(** * Beyond the table: any frame *)

Section Frames.
Import PyFloat.

Lemma lookup_col_mask (mask : list bool) (fl : list (string * list float))
    (col : string) :
  lookup_col (prod_map id (select mask) <$> fl) col
  = select mask <$> lookup_col fl col.
Proof.
  induction fl as [|[c s] fl IH]; simpl; [done|].
  destruct (String.eqb c col); [done | apply IH].
Qed.

Lemma lookup_col_elem (fl : list (string * list float)) (col : string) :
  col ∈ fl.*1 -> exists s, lookup_col fl col = Ok s /\ (col, s) ∈ fl.
Proof.
  induction fl as [|[c s] fl IH]; simpl; [by intros ?%elem_of_nil|].
  intros Hin. destruct (String.eqb_spec c col) as [->|Hne].
  - exists s. split; [done | left].
  - apply elem_of_cons in Hin as [?|Hin]; [congruence|].
    destruct (IH Hin) as (s' & ? & ?). exists s'. split; [done | by right].
Qed.

(** Under the mask of a month, a column starts with its entry at the first
    row of that month. *)
Lemma select_first {A} (l : list Z) (month : Z) (s : list A) (i : nat) (v : Z) :
  length s = length l ->
  list_find (fun v => v = month) l = Some (i, v) ->
  exists t, s !! i = Some t /\
    head (select ((fun v => bool_decide (v = month)) <$> l) s) = Some t.
Proof.
  revert s i. induction l as [|v0 l IH]; intros [|t0 s] i Hlen Hfind; try done.
  simpl in *. case_bool_decide as Hv0.
  - rewrite decide_True in Hfind by done. injection Hfind as <- <-. by exists t0.
  - rewrite decide_False in Hfind by done.
    destruct (list_find _ l) as [[i' v']|] eqn:Hl; [|done].
    injection Hfind as <- <-. apply (IH s i'); [lia | done].
Qed.

(** In a well-formed frame with a row for the month, every float column has
    its cell, and the handler's [row[col].values[0]] reads it. *)
Lemma row_cell (df : DataFrame) (month : Z) (col : string) :
  well_formed df -> month ∈ Month df -> col ∈ (floats df).*1 ->
  exists t, cell df month col = Some t /\
    (getitem (getitem_mask df (Month_eq df month)) col ≫= values0) = Ok t.
Proof.
  intros Hwf Hm Hcol.
  destruct (list_find_elem_of (fun v => v = month) (Month df) month Hm eq_refl)
    as [[i v] Hfind].
  destruct (lookup_col_elem _ _ Hcol) as (s & Hs & Hin).
  pose proof (proj1 (Forall_forall _ _) Hwf _ Hin) as Hlen. simpl in Hlen.
  destruct (select_first (Month df) month s i v Hlen Hfind) as (t & Hi & Hhd).
  exists t. unfold cell, getitem, getitem_mask, Month_eq. simpl.
  rewrite Hfind, lookup_col_mask, Hs. simpl. split; [done|].
  destruct (select _ s); [done|]. simpl in Hhd. by injection Hhd as ->.
Qed.

Lemma cells_collect (df : DataFrame) (month : Z) (cols : list string) :
  well_formed df -> month ∈ Month df -> cols ⊆ (floats df).*1 ->
  exists ts, ts.*1 = cols /\
    Forall (fun ct => cell df month ct.1 = Some ct.2) ts /\
    Forall (fun ct =>
      (getitem (getitem_mask df (Month_eq df month)) ct.1 ≫= values0) = Ok ct.2) ts.
Proof.
  intros Hwf Hm. induction cols as [|c cols IH]; intros Hsub.
  - by exists [].
  - destruct IH as (ts & Hts & Hc & Hg); [set_solver|].
    destruct (row_cell df month c Hwf Hm) as (t & ? & ?); [set_solver|].
    exists ((c, t) :: ts). split; [by rewrite fmap_cons, Hts|].
    split; by constructor.
Qed.

(** With a row for the month, the function walks the cells of the first such
    row, column by column. *)
Lemma find_percentile_column_cells (df : DataFrame) (month : Z) :
  well_formed df -> month ∈ Month df ->
  exists ts, ts.*1 = percentile_cols df /\
    Forall (fun ct => cell df month ct.1 = Some ct.2) ts /\
    forall a, find_percentile_column df month a = Ok (Some (walk a ts "p_0")).
Proof.
  intros Hwf Hm.
  destruct (cells_collect df month (percentile_cols df) Hwf Hm) as (ts & Hts & Hc & Hg).
  { intros c [Hne Hc]%list_elem_of_filter. unfold columns in Hc.
    by apply elem_of_cons in Hc as [?|?]. }
  exists ts. split; [done|]. split; [done|].
  intros a. apply find_percentile_column_walk; [|done|done].
  unfold empty, getitem_mask, Month_eq. simpl.
  destruct (select _ (Month df)) eqn:Hsel; [|done].
  by apply select_Month_eq in Hsel.
Qed.


Lemma passed_prefix (a : float) (ts : list (string * float)) (j : nat)
    (ct : string * float) :
  (j < passed a ts)%nat -> ts !! j = Some ct -> le ct.2 a = true.
Proof.
  revert j. induction ts as [|[c t] ts IH]; intros j Hj Hct; simpl in *; [lia|].
  destruct (le t a) eqn:Ht; [|lia].
  destruct j as [|j]; simpl in Hct; [by injection Hct as <- | apply (IH j); [lia|done]].
Qed.

Lemma passed_stop (a : float) (ts : list (string * float)) (ct : string * float) :
  ts !! passed a ts = Some ct -> le ct.2 a = false.
Proof.
  induction ts as [|[c t] ts IH]; simpl; [done|].
  destruct (le t a) eqn:Ht; simpl; [apply IH | by intros [= <-]].
Qed.


End Frames.

(** ** [find_percentile_column] on any frame *)


Lemma percentile_df_well_formed : well_formed percentile_df.
Proof. unfold well_formed. by repeat constructor. Qed.


(** X2. What the early exit returns on a well-formed frame, sorted rows or
    not: the column at the first failure.  Every column before the answer's
    place has its cell, in the first row of the month, at most the amount;
    the column at that place, when there is one, has not. *)
Theorem find_percentile_column_first_failure (df : DataFrame) (month : Z)
    (amount : float) (b : string) :
  well_formed df ->
  find_percentile_column df month amount = Ok (Some b) ->
  exists k : nat,
    ("p_0" :: percentile_cols df) !! k = Some b /\
    (forall (j : nat) (c : string), (j < k)%nat -> percentile_cols df !! j = Some c ->
       exists t, cell df month c = Some t /\ PyFloat.le t amount = true) /\
    (forall c : string, percentile_cols df !! k = Some c ->
       exists t, cell df month c = Some t /\ PyFloat.le t amount = false).
Proof.
  intros Hwf Hb.
  destruct (decide (month ∈ Month df)) as [Hm|Hm];
    [|apply (find_percentile_column_None df month amount) in Hm; congruence].
  destruct (find_percentile_column_cells df month Hwf Hm) as (ts & Hts & Hc & Hw).
  rewrite Hw in Hb. injection Hb as <-.
  exists (passed amount ts). rewrite <- Hts. split; [apply walk_passed|].
  split.
  - intros j c Hj Hjc. apply list_lookup_fmap_Some_1 in Hjc as ([c' t] & -> & Hjc).
    exists t. split; [apply (proj1 (Forall_lookup _ _) Hc _ _ Hjc)|].
    apply (passed_prefix amount ts j (c', t) Hj Hjc).
  - intros c Hkc. apply list_lookup_fmap_Some_1 in Hkc as ([c' t] & -> & Hkc).
    exists t. split; [apply (proj1 (Forall_lookup _ _) Hc _ _ Hkc)|].
    apply (passed_stop amount ts (c', t) Hkc).
Qed.

Lemma find_percentile_column_first_failure_witness :
  (well_formed percentile_df /\
   find_percentile_column percentile_df 3 15000 = Ok (Some "p_25")) /\
  exists k : nat,
    ("p_0" :: percentile_cols percentile_df) !! k = Some "p_25" /\
    (forall (j : nat) (c : string), (j < k)%nat ->
       percentile_cols percentile_df !! j = Some c ->
       exists t, cell percentile_df 3 c = Some t /\ PyFloat.le t 15000 = true) /\
    (forall c : string, percentile_cols percentile_df !! k = Some c ->
       exists t, cell percentile_df 3 c = Some t /\ PyFloat.le t 15000 = false).
Proof.
  split; [split; [apply percentile_df_well_formed | reflexivity]|].
  apply (find_percentile_column_first_failure percentile_df 3 15000 "p_25");
    [apply percentile_df_well_formed | reflexivity].
Defined.

(** X3. On any well-formed frame a larger amount never gives an earlier
    column: for [a1 <= a2] the answer for [a1] stands at or before the answer
    for [a2] in the order of the visit.  Sorted rows are not needed. *)
Theorem find_percentile_column_monotone (df : DataFrame) (month : Z)
    (a1 a2 : float) (b1 b2 : string) :
  well_formed df ->
  PyFloat.le a1 a2 = true ->
  find_percentile_column df month a1 = Ok (Some b1) ->
  find_percentile_column df month a2 = Ok (Some b2) ->
  exists i j : nat,
    ("p_0" :: percentile_cols df) !! i = Some b1 /\
    ("p_0" :: percentile_cols df) !! j = Some b2 /\
    (i <= j)%nat.
Proof.
  intros Hwf Ha Hb1 Hb2.
  destruct (decide (month ∈ Month df)) as [Hm|Hm];
    [|apply (find_percentile_column_None df month a1) in Hm; congruence].
  destruct (find_percentile_column_cells df month Hwf Hm) as (ts & Hts & _ & Hw).
  rewrite Hw in Hb1, Hb2. injection Hb1 as <-. injection Hb2 as <-.
  exists (passed a1 ts), (passed a2 ts). rewrite <- Hts.
  auto using walk_passed, passed_mono.
Qed.

Lemma find_percentile_column_monotone_witness :
  (well_formed percentile_df /\ PyFloat.le 15000 20000 = true /\
   find_percentile_column percentile_df 3 15000 = Ok (Some "p_25") /\
   find_percentile_column percentile_df 3 20000 = Ok (Some "p_50")) /\
  exists i j : nat,
    ("p_0" :: percentile_cols percentile_df) !! i = Some "p_25" /\
    ("p_0" :: percentile_cols percentile_df) !! j = Some "p_50" /\
    (i <= j)%nat.
Proof.
  split; [split; [apply percentile_df_well_formed | repeat split; reflexivity]|].
  apply (find_percentile_column_monotone percentile_df 3 15000 20000);
    [apply percentile_df_well_formed | reflexivity..].
Defined.





(** ** The handler and the page *)

(** For a month from 1 to 9 the handler's lookups all succeed. *)
Lemma classify_in_range (month : Z) (a : float) :
  1 <= month <= 9 ->
  exists b c s,
    b ∈ all_bands /\
    dict_getitem risk_cat b = Ok c /\
    dict_getitem risk_colors c = Ok s /\
    classify month a = Ok (Classified b c s).
Proof.
  intros Hm.
  destruct (find_percentile_column_passed month a Hm) as (b & Hr & Hb).
  apply list_elem_of_lookup_2 in Hr.
  destruct (band_lookups b Hr) as (c & s & _ & Hc & Hs).
  exists b, c, s. repeat (split; [done|]).
  by rewrite (classify_band _ _ _ Hb), Hc; simpl; rewrite Hs.
Qed.

Lemma classify_out_of_range (month : Z) (a : float) :
  ~ (1 <= month <= 9) -> classify month a = Ok MonthNotFound.
Proof.
  intros Hm. apply classify_MonthNotFound, find_percentile_column_None.
  by rewrite Month_range.
Qed.

(** X6. The handler displays the invalid-month error, and nothing else,
    exactly for the months outside 1 to 9 that its message names, whatever
    the amount. *)
Theorem on_calculate_invalid_month (month : Z) (amount : float) :
  on_calculate month amount
  = Ok [st_error "Invalid month entered. Please enter a month between 1 and 9."]
  <-> ~ (1 <= month <= 9).
Proof.
  unfold on_calculate. split.
  - intros Hshown Hm.
    destruct (classify_in_range month amount Hm) as (b & c & s & _ & _ & _ & Hcl).
    rewrite Hcl in Hshown. discriminate Hshown.
  - intros Hm. by rewrite (classify_out_of_range month amount Hm).
Qed.

(** X7. For a month from 1 to 9 the handler displays the results: a rule, the
    heading, the two metrics side by side and one advisory.  The percentile
    is shown in capitals, the category after its symbol, and the advisory is
    the error for p0, the warning for p10, the note for p25 and p50 and the
    success message for p75 and p90 only. *)
Theorem on_calculate_results (month : Z) (amount : float) :
  1 <= month <= 9 ->
  exists b label text adv,
    band_of (classify month amount) = Some b /\
    on_calculate month amount
    = Ok [st_markdown "---";
          st_subheader "Results";
          st_columns [[st_metric "Percentile" label];
                      [st_metric "Risk Category" text]];
          adv] /\
    (b, label, text, adv) ∈ [
      ("p_0", "P_0", "🔴 Critical",
       st_error "Fellow is in Critical status. Immediate intervention recommended.");
      ("p_10", "P_10", "🟠 High Risk",
       st_warning "Fellow is at High Risk. Close monitoring and support needed.");
      ("p_25", "P_25", "🟡 Watch",
       st_info "Fellow should be monitored. Consider additional support.");
      ("p_50", "P_50", "🟡 Watch",
       st_info "Fellow should be monitored. Consider additional support.");
      ("p_75", "P_75", "🟢 On Track",
       st_success "Fellow is On Track. Continue current approach.");
      ("p_90", "P_90", "🟢 On Track",
       st_success "Fellow is On Track. Continue current approach.")].
Proof.
  intros Hm.
  destruct (classify_in_range month amount Hm) as (b & c & s & Hb & Hc & Hs & Hcl).
  exists b, (upper b), (s +:+ " " +:+ c), (advisory c).
  unfold on_calculate. rewrite Hcl. split; [done|]. split; [done|].
  repeat (apply elem_of_cons in Hb as [->|Hb]); [..|by apply elem_of_nil in Hb];
    vm_compute in Hc; injection Hc as <-;
    vm_compute in Hs; injection Hs as <-;
    vm_compute (upper _); vm_compute (_ +:+ _); vm_compute (advisory _);
    repeat first [apply list_elem_of_here | apply list_elem_of_further].
Qed.

Lemma on_calculate_results_witness :
  1 <= 3 <= 9 /\
  exists b label text adv,
    band_of (classify 3 15000) = Some b /\
    on_calculate 3 15000
    = Ok [st_markdown "---";
          st_subheader "Results";
          st_columns [[st_metric "Percentile" label];
                      [st_metric "Risk Category" text]];
          adv] /\
    (b, label, text, adv) ∈ [
      ("p_0", "P_0", "🔴 Critical",
       st_error "Fellow is in Critical status. Immediate intervention recommended.");
      ("p_10", "P_10", "🟠 High Risk",
       st_warning "Fellow is at High Risk. Close monitoring and support needed.");
      ("p_25", "P_25", "🟡 Watch",
       st_info "Fellow should be monitored. Consider additional support.");
      ("p_50", "P_50", "🟡 Watch",
       st_info "Fellow should be monitored. Consider additional support.");
      ("p_75", "P_75", "🟢 On Track",
       st_success "Fellow is On Track. Continue current approach.");
      ("p_90", "P_90", "🟢 On Track",
       st_success "Fellow is On Track. Continue current approach.")].
Proof.
  split; [lia | apply (on_calculate_results 3 15000); lia].
Defined.

(** X8. A run of the script never raises, whatever the month, the amount and
    the button: the reference table is always displayed, and the run always
    ends with the footer. *)
Theorem app_never_raises (month : Z) (amount : float) (clicked : bool) :
  exists shown,
    app month amount clicked = Ok shown /\
    st_expander "View Percentile Reference Table"
      [st_dataframe percentile_df true] ∈ shown /\
    last shown = Some (st_caption "Built by P.M.McGrath").
Proof.
  assert (Hhandler : exists ws, on_calculate month amount = Ok ws).
  { unfold on_calculate. destruct (decide (1 <= month <= 9)) as [Hm|Hm].
    - destruct (classify_in_range month amount Hm) as (b & c & s & _ & _ & _ & ->).
      by eexists.
    - rewrite (classify_out_of_range month amount Hm). by eexists. }
  destruct Hhandler as (ws & Hws).
  unfold app. destruct clicked; [rewrite Hws|]; simpl;
    (eexists; split; [reflexivity|]; split;
     [ set_solver
     | first [reflexivity | rewrite !last_cons, last_app; reflexivity] ]).
Qed.

(** X9. In month 1 the thresholds p10 and p25 are both zero, so an amount
    the form accepts (at least its minimum 0.0) is never Critical nor High
    Risk: the band is p25 or above and the category Watch or On Track. *)
Theorem classify_month_1_at_least_zero (amount : float) :
  PyFloat.le 0 amount = true ->
  exists b c,
    band_of (classify 1 amount) = Some b /\
    category_of (classify 1 amount) = Some c /\
    b ∈ ["p_25"; "p_50"; "p_75"; "p_90"] /\
    c ∈ ["Watch"; "On Track"].
Proof.
  intros Ha.
  assert (Hw : forall a, find_percentile_column percentile_df 1 a
                = Ok (Some (walk a (row_thresholds 1) "p_0")))
    by (by destruct (table_row 1) as (? & ? & ? & ? & ? & _ & _ & ?)).
  change (row_thresholds 1) with
    [("p_10", 0%float); ("p_25", 0%float); ("p_50", 243.87%float);
     ("p_75", 2049.31%float); ("p_90", 2871.238%float)] in Hw.
  specialize (Hw amount). simpl in Hw. rewrite Ha in Hw.
  destruct (PyFloat.le 243.87 amount);
    [destruct (PyFloat.le 2049.31 amount);
      [destruct (PyFloat.le 2871.238 amount)|]|];
    rewrite (classify_band _ _ _ Hw); do 2 eexists;
    (split; [reflexivity|]; split; [reflexivity|]; split;
     repeat first [apply list_elem_of_here | apply list_elem_of_further]).
Qed.

Lemma classify_month_1_at_least_zero_witness :
  PyFloat.le 0 0 = true /\
  exists b c,
    band_of (classify 1 0) = Some b /\
    category_of (classify 1 0) = Some c /\
    b ∈ ["p_25"; "p_50"; "p_75"; "p_90"] /\
    c ∈ ["Watch"; "On Track"].
Proof.
  split; [reflexivity | apply (classify_month_1_at_least_zero 0); reflexivity].
Defined.

(** X10. The two dictionaries fit together: the keys of [risk_colors] are the
    four categories, which are exactly the values of [risk_cat], and no two
    categories share a symbol. *)
Theorem risk_colors_consistent :
  dom risk_colors = list_to_set categories /\
  (forall b c, risk_cat !! b = Some c -> c ∈ categories) /\
  Forall (fun c => exists b, risk_cat !! b = Some c) categories /\
  (forall c1 c2 s,
     risk_colors !! c1 = Some s -> risk_colors !! c2 = Some s -> c1 = c2).
Proof.
  split; [reflexivity|]. split; [|split].
  - intros b c Hbc. apply elem_of_list_to_map_2 in Hbc.
    repeat (apply elem_of_cons in Hbc as [[= -> ->]|Hbc]);
      [..|by apply elem_of_nil in Hbc];
      repeat first [apply list_elem_of_here | apply list_elem_of_further].
  - repeat (apply List.Forall_cons; [|]); [..|apply List.Forall_nil].
    + by exists "p_0".
    + by exists "p_10".
    + by exists "p_25".
    + by exists "p_75".
  - intros c1 c2 s H1 H2.
    apply elem_of_list_to_map_2 in H1. apply elem_of_list_to_map_2 in H2.
    repeat (apply elem_of_cons in H1 as [[= -> ->]|H1]);
      [..|by apply elem_of_nil in H1];
      rewrite !elem_of_cons, elem_of_nil in H2;
      destruct H2 as [H2|[H2|[H2|[H2|[]]]]]; congruence.
Qed.
